(** * The upload handler of the file-encryption example

    A shallow embedding of [src/index.ts]: the [POST /upload] route of a Hono
    application that base64-encodes an uploaded file, encrypts it with
    Protect.js, stores the encrypted JSON in a Supabase bucket, reads it back,
    decrypts it and writes the reconstructed bytes under [uploads/].

    The handler is the only code of the repository.  Everything it calls
    (Protect.js, Supabase storage, [node:fs], [node:path], [JSON]) belongs to
    a library or to the runtime, and enters the model as a record of
    operations over an abstract world state.  [Buffer]'s base64 codec is
    written out, since the round trip of the payload goes through it. *)

From Stdlib Require Import NArith Lia Ascii String.
From Stdlib.Strings Require Import Byte.
From stdpp Require Import base option list strings gmap.

Local Open Scope string_scope.
Local Open Scope N_scope.

(** ** Node's [Buffer]: the base64 codec *)

Module Buffer.

(** [Buffer.from(arrayBuffer)]: a buffer is the list of its bytes. *)
Definition t := list byte.

Definition byteLength (buf : t) : N := N.of_nat (length buf).

Definition base64_table : string :=
  "ABCDEFGHIJKLMNOPQRSTUVWXYZabcdefghijklmnopqrstuvwxyz0123456789+/".

Definition base64_char (n : N) : ascii :=
  match String.get (N.to_nat n) base64_table with
  | Some c => c
  | None => "="%char
  end.

(** The decoding table accepts the standard and the URL-safe alphabet. *)
Definition unbase64 (c : ascii) : option N :=
  let n := N_of_ascii c in
  if (65 <=? n) && (n <=? 90) then Some (n - 65)
  else if (97 <=? n) && (n <=? 122) then Some (n - 71)
  else if (48 <=? n) && (n <=? 57) then Some (n + 4)
  else if (n =? 43) || (n =? 45) then Some 62
  else if (n =? 47) || (n =? 95) then Some 63
  else None.

(** The four sextets of a group of three bytes. *)
Definition enc0 (a : N) : N := N.shiftr a 2.
Definition enc1 (a b : N) : N := N.lor (N.shiftl (N.land a 3) 4) (N.shiftr b 4).
Definition enc2 (b c : N) : N := N.lor (N.shiftl (N.land b 15) 2) (N.shiftr c 6).
Definition enc3 (c : N) : N := N.land c 63.

(** [buf.toString('base64')]: groups of three bytes, padded with [=]. *)
Fixpoint toString_base64 (buf : t) : string :=
  match buf with
  | [] => ""
  | [x] =>
      let a := Byte.to_N x in
      String (base64_char (enc0 a)) (String (base64_char (enc1 a 0)) "==")
  | [x; y] =>
      let a := Byte.to_N x in
      let b := Byte.to_N y in
      String (base64_char (enc0 a)) (String (base64_char (enc1 a b))
        (String (base64_char (enc2 b 0)) "="))
  | x :: y :: z :: rest =>
      let a := Byte.to_N x in
      let b := Byte.to_N y in
      let c := Byte.to_N z in
      String (base64_char (enc0 a)) (String (base64_char (enc1 a b))
        (String (base64_char (enc2 b c)) (String (base64_char (enc3 c))
          (toString_base64 rest))))
  end.

(** A stored byte is the low eight bits of the value assigned to it. *)
Definition to_byte (n : N) : byte :=
  match Byte.of_N (N.land n 255) with
  | Some b => b
  | None => x00
  end.

Definition dec0 (hi lo : N) : byte :=
  to_byte (N.lor (N.shiftl (N.land hi 63) 2) (N.shiftr (N.land lo 48) 4)).
Definition dec1 (hi lo : N) : byte :=
  to_byte (N.lor (N.shiftl (N.land hi 15) 4) (N.shiftr (N.land lo 60) 2)).
Definition dec2 (hi lo : N) : byte :=
  to_byte (N.lor (N.shiftl (N.land hi 3) 6) (N.land lo 63)).

(** The decoder is lenient: a character outside the table is skipped and
    the first [=] ends the input. *)
Fixpoint sextets (s : string) : list N :=
  match s with
  | EmptyString => []
  | String c rest =>
      match unbase64 c with
      | Some n => n :: sextets rest
      | None => if Ascii.eqb c "=" then [] else sextets rest
      end
  end.

(** A byte is produced as soon as the second, third and fourth sextet of a
    group has been read. *)
Fixpoint decode_groups (l : list N) : t :=
  match l with
  | a :: b :: c :: d :: rest => dec0 a b :: dec1 b c :: dec2 c d :: decode_groups rest
  | [a; b; c] => [dec0 a b; dec1 b c]
  | [a; b] => [dec0 a b]
  | _ => []
  end.

(** [Buffer.from(s, 'base64')] *)
Definition from_base64 (s : string) : t := decode_groups (sextets s).

End Buffer.

(** ** Exhaustive checks

    The codec works on bytes and sextets, so what the proofs need about the
    bit operations is checked on every value by evaluation. *)

Module BufferChecks.
Import Buffer.

(** The numbers below [k]. *)
Definition below (k : nat) : list N := map N.of_nat (seq 0 k).

(** [P] holds of every pair of bytes. *)
Definition pairs_ok (P : N -> N -> bool) : bool :=
  forallb (fun a => forallb (P a) (below 256)) (below 256).

(** A sextet is mapped to a character of the table that is not the
    padding and that the decoding table maps back. *)
Definition sextet_ok (n : N) : bool :=
  match unbase64 (base64_char n) with
  | Some m => (m =? n) && negb (Ascii.eqb (base64_char n) "=")
  | None => false
  end.

(** What each decoding step reads of the sextets, on pairs of bytes. *)
Definition group_ok (a b : N) : bool :=
  (enc0 a <? 64) && (enc1 a b <? 64) && (enc2 a b <? 64) && (enc3 a <? 64)
  && (N.land (enc0 a) 63 =? N.shiftr a 2)
  && (N.land (enc1 a b) 48 =? N.shiftl (N.land a 3) 4)
  && (N.land (enc1 a b) 15 =? N.shiftr b 4)
  && (N.land (enc2 a b) 60 =? N.shiftl (N.land a 15) 2)
  && (N.land (enc2 a b) 3 =? N.shiftr b 6)
  && (N.lor (N.shiftl (N.shiftr a 2) 2) (N.shiftr (N.shiftl (N.land a 3) 4) 4) =? a)
  && (N.lor (N.shiftl (N.shiftr a 4) 4) (N.shiftr (N.shiftl (N.land a 15) 2) 2) =? a)
  && (N.lor (N.shiftl (N.shiftr a 6) 6) (N.land (N.land a 63) 63) =? a).

End BufferChecks.

(** ** JavaScript values the handler touches *)

(** An [Error] object, as far as the [catch] block reads it. *)
Module Error.
Record t := { name : string; message : string; stack : string }.
End Error.

(** The state of an awaited promise: it resolved with a value or it was
    rejected, which [await] turns into a thrown exception. *)
Inductive Outcome (A : Type) :=
| Resolved (a : A)
| Rejected (e : Error.t).
Arguments Resolved {A} a.
Arguments Rejected {A} e.

(** Strings stand for their UTF-8 bytes, so that [new Blob([s])] and
    [blob.text()] change the type only. *)
Module Blob.
Record t := { type : string; content : list byte }.

(** [new Blob([s], { type })] *)
Definition of_string (s : string) (ty : string) : t :=
  {| type := ty; content := list_byte_of_string s |}.

(** [await blob.text()] *)
Definition text (b : t) : string := string_of_list_byte (content b).
End Blob.

Module File.
Record t := { name : string; type : string; content : list byte }.

(** [new File([blob], name, { type })] *)
Definition of_blob (b : Blob.t) (n : string) (ty : string) : t :=
  {| name := n; type := ty; content := Blob.content b |}.

Definition size (f : t) : N := N.of_nat (length (content f)).

(** [await file.arrayBuffer()] *)
Definition arrayBuffer (f : t) : list byte := content f.
End File.

(** [FormData]: an ordered list of entries, [get] returns the first value
    bound to the name, or [null]. *)
Module FormData.
Inductive FormDataEntryValue :=
| EntryString (s : string)
| EntryFile (f : File.t).

Definition t := list (string * FormDataEntryValue).

Fixpoint get (fd : t) (field : string) : option FormDataEntryValue :=
  match fd with
  | [] => None
  | (k, v) :: rest => if String.eqb k field then Some v else get rest field
  end.

(** [!file] is true of [null] and of the empty string. *)
Definition falsy (v : option FormDataEntryValue) : bool :=
  match v with
  | None => true
  | Some (EntryString s) => String.eqb s ""
  | Some (EntryFile _) => false
  end.

Definition instanceof_File (v : option FormDataEntryValue) : bool :=
  match v with
  | Some (EntryFile _) => true
  | _ => false
  end.
End FormData.

(** The request context [c], as far as the handler reads it:
    [await c.req.formData()] resolves with the parsed form or is rejected. *)
Record HonoContext := { req_formData : Outcome FormData.t }.

(** What [c.json(body, status)] sends. *)
Record FileDetails := { details_name : string; details_type : string; details_size : N }.

Inductive Body :=
| ErrorBody (error : string)
| ErrorDetailsBody (error : string) (details : string)
| UploadedBody (message : string) (file : FileDetails).

Record Response := { status : N; body : Body }.

Definition c_json (b : Body) (st : N) : Response := {| status := st; body := b |}.

(** ** The libraries the handler calls *)

(** [csTable('uploads', { file: csColumn('file') })] *)
Record ProtectTable := { tableName : string; columns : list string }.

Definition csColumn (c : string) : string := c.
Definition csTable (t : string) (cols : list string) : ProtectTable :=
  {| tableName := t; columns := cols |}.

Definition uploads : ProtectTable := csTable "uploads" [csColumn "file"].

Record EncryptOptions := { table : ProtectTable; column : string }.

(** Protect.js answers with [{ data }] or with [{ failure }]. *)
Record ProtectError := { failure_message : string }.

Inductive Result (A : Type) :=
| Data (data : A)
| Failure (failure : ProtectError).
Arguments Data {A} data.
Arguments Failure {A} failure.

(** ['failure' in r] *)
Definition has_failure {A} (r : Result A) : bool :=
  match r with
  | Data _ => false
  | Failure _ => true
  end.

(** Supabase storage answers with [{ data, error }]. *)
Record StorageError := { storage_message : string }.
Record StorageReply (A : Type) := { data : option A; error : option StorageError }.
Arguments data {A} _.
Arguments error {A} _.

(** The operations are taken as they are called, over a state [World] of
    everything outside the process (key service, bucket, disk); [Json] is
    the type of parsed JSON values and [Client] the Protect.js client. *)
Record Services (World Json Client : Type) := {
  protect : list ProtectTable -> World -> Outcome Client * World;
  encrypt : Client -> string -> EncryptOptions -> World -> Outcome (Result Json) * World;
  decrypt : Client -> Json -> World -> Outcome (Result string) * World;
  upload : string -> string -> File.t -> World -> Outcome (StorageReply string) * World;
  download : string -> string -> World -> Outcome (StorageReply Blob.t) * World;
  writeFile : string -> Buffer.t -> World -> Outcome unit * World;
  JSON_stringify : Json -> string;
  JSON_parse : string -> Outcome Json;
  join : string -> string -> string;
  process_cwd : string
}.
Arguments protect {World Json Client} _.
Arguments encrypt {World Json Client} _.
Arguments decrypt {World Json Client} _.
Arguments upload {World Json Client} _.
Arguments download {World Json Client} _.
Arguments writeFile {World Json Client} _.
Arguments JSON_stringify {World Json Client} _.
Arguments JSON_parse {World Json Client} _.
Arguments join {World Json Client} _.
Arguments process_cwd {World Json Client} _.

(** ** What a request does: the calls it makes, with their answers *)

Record LogDetails := {
  log_name : string; log_type : string; log_size : N;
  originalSize : N; reconstructedSize : N
}.

Inductive Event (Json Client : Type) :=
| EvProtect (schemas : list ProtectTable) (r : Outcome Client)
| EvEncrypt (plaintext : string) (opts : EncryptOptions) (r : Outcome (Result Json))
| EvUpload (bucket path : string) (f : File.t) (r : Outcome (StorageReply string))
| EvDownload (bucket path : string) (r : Outcome (StorageReply Blob.t))
| EvDecrypt (payload : Json) (r : Outcome (Result string))
| EvWriteFile (path : string) (buf : Buffer.t) (r : Outcome unit)
| EvConsoleLog (label : string) (d : LogDetails)
| EvConsoleError (label : string) (e : Error.t).
Arguments EvProtect {Json Client}.
Arguments EvEncrypt {Json Client}.
Arguments EvUpload {Json Client}.
Arguments EvDownload {Json Client}.
Arguments EvDecrypt {Json Client}.
Arguments EvWriteFile {Json Client}.
Arguments EvConsoleLog {Json Client}.
Arguments EvConsoleError {Json Client}.

Definition is_encryption_call {Json Client} (ev : Event Json Client) : bool :=
  match ev with
  | EvEncrypt _ _ _ | EvDecrypt _ _ => true
  | _ => false
  end.

Definition is_decrypt {Json Client} (ev : Event Json Client) : bool :=
  match ev with
  | EvDecrypt _ _ => true
  | _ => false
  end.

Definition is_store_call {Json Client} (ev : Event Json Client) : bool :=
  match ev with
  | EvUpload _ _ _ _ | EvDownload _ _ _ => true
  | _ => false
  end.

Definition is_upload {Json Client} (ev : Event Json Client) : bool :=
  match ev with
  | EvUpload _ _ _ _ => true
  | _ => false
  end.

Definition is_writeFile {Json Client} (ev : Event Json Client) : bool :=
  match ev with
  | EvWriteFile _ _ _ => true
  | _ => false
  end.

(** ** The handler *)

Section Handler.
Context {World Json Client : Type}.
Variable S : Services World Json Client.

(** A computation threads the outside world and the list of calls made so
    far, and ends with a value or with a thrown exception. *)
Definition M (A : Type) : Type :=
  World * list (Event Json Client) ->
  Outcome A * (World * list (Event Json Client)).

Definition ret {A} (a : A) : M A := fun st => (Resolved a, st).

Definition bind {A B} (m : M A) (k : A -> M B) : M B :=
  fun st =>
    match m st with
    | (Resolved a, st') => k a st'
    | (Rejected e, st') => (Rejected e, st')
    end.

(** A value that is computed without the outside world, or the exception
    thrown instead. *)
Definition await {A} (o : Outcome A) : M A := fun st => (o, st).

(** A call to a library: the world moves and the call is recorded. *)
Definition call {A} (op : World -> Outcome A * World)
    (ev : Outcome A -> Event Json Client) : M A :=
  fun st =>
    let (r, w') := op (fst st) in (r, (w', (snd st ++ [ev r])%list)).

Definition console (ev : Event Json Client) : M unit :=
  fun st => (Resolved tt, (fst st, (snd st ++ [ev])%list)).

(** [try { m } catch (error) { h error }] *)
Definition try_catch {A} (m : M A) (h : Error.t -> M A) : M A :=
  fun st =>
    match m st with
    | (Resolved a, st') => (Resolved a, st')
    | (Rejected e, st') => h e st'
    end.

Notation "x <- m ;; k" := (bind m (fun x => k))
  (at level 100, m at next level, right associativity).

(** [app.post('/upload', async (c) => { ... })] *)
Definition upload_handler (c : HonoContext) : M Response :=
  try_catch
    (protectClient <- call (protect S [uploads]) (EvProtect [uploads]) ;;
     formData <- await (req_formData c) ;;
     let file := FormData.get formData "file" in
     match file with
     | Some (FormData.EntryFile file) =>
         let arrayBuffer := File.arrayBuffer file in
         let base64String := Buffer.toString_base64 arrayBuffer in
         let opts := {| table := uploads; column := "file" |} in
         encrypted <- call (encrypt S protectClient base64String opts)
                           (EvEncrypt base64String opts) ;;
         match encrypted with
         | Failure _ => ret (c_json (ErrorBody "Failed to encrypt file") 500)
         | Data encrypted_data =>
             let blob :=
               Blob.of_string (JSON_stringify S encrypted_data) "application/json" in
             let fileToUpload :=
               File.of_blob blob (File.name file +:+ ".encrypted") "application/json" in
             uploaded <- call (upload S "uploads" (File.name file +:+ ".encrypted") fileToUpload)
                              (EvUpload "uploads" (File.name file +:+ ".encrypted") fileToUpload) ;;
             downloaded <- call (download S "uploads" (File.name file +:+ ".encrypted"))
                                (EvDownload "uploads" (File.name file +:+ ".encrypted")) ;;
             match data downloaded with
             | None => ret (c_json (ErrorBody "Failed to download file") 500)
             | Some downloadedFile =>
                 let downloadedText := Blob.text downloadedFile in
                 downloadedJson <- await (JSON_parse S downloadedText) ;;
                 decrypted <- call (decrypt S protectClient downloadedJson)
                                   (EvDecrypt downloadedJson) ;;
                 match decrypted with
                 | Failure _ => ret (c_json (ErrorBody "Failed to decrypt file") 500)
                 | Data decrypted_data =>
                     let buffer := Buffer.from_base64 decrypted_data in
                     let reconstructedArrayBuffer := buffer in
                     let uploadsDir := join S (process_cwd S) "uploads" in
                     _ <- call (writeFile S (join S uploadsDir (File.name file)) buffer)
                               (EvWriteFile (join S uploadsDir (File.name file)) buffer) ;;
                     _ <- console (EvConsoleLog "File details:"
                            {| log_name := File.name file;
                               log_type := File.type file;
                               log_size := File.size file;
                               originalSize := Buffer.byteLength arrayBuffer;
                               reconstructedSize := Buffer.byteLength reconstructedArrayBuffer |}) ;;
                     let fileDetails :=
                       {| details_name := File.name file;
                          details_type := File.type file;
                          details_size := File.size file |} in
                     ret (c_json (UploadedBody "File uploaded successfully" fileDetails) 200)
                 end
             end
         end
     | _ => ret (c_json (ErrorBody "No file provided or invalid file format") 400)
     end)
    (fun error =>
       _ <- console (EvConsoleError "Detailed error:" error) ;;
       ret (c_json (ErrorDetailsBody "Failed to upload file" (Error.message error)) 500)).

(** One request, served from the world [w]. *)
Definition POST_upload (c : HonoContext) (w : World) :
    Outcome Response * (World * list (Event Json Client)) :=
  upload_handler c (w, []).

Definition response (c : HonoContext) (w : World) : Outcome Response :=
  fst (POST_upload c w).

Definition world_after (c : HonoContext) (w : World) : World :=
  fst (snd (POST_upload c w)).

Definition trace (c : HonoContext) (w : World) : list (Event Json Client) :=
  snd (snd (POST_upload c w)).

End Handler.


(** The same services, except that the storage client reports every
    upload as stored; the bucket itself behaves as before. *)
Definition reported_stored (path : string) (r : Outcome (StorageReply string)) :
    Outcome (StorageReply string) :=
  match r with
  | Resolved _ => Resolved {| data := Some path; error := None |}
  | Rejected e => Rejected e
  end.

Definition with_upload_reported_stored {World Json Client}
    (S : Services World Json Client) : Services World Json Client :=
  {| protect := protect S;
     encrypt := encrypt S;
     decrypt := decrypt S;
     upload := fun bucket path f w =>
       let (r, w') := upload S bucket path f w in (reported_stored path r, w');
     download := download S;
     writeFile := writeFile S;
     JSON_stringify := JSON_stringify S;
     JSON_parse := JSON_parse S;
     join := join S;
     process_cwd := process_cwd S |}.

(** ** In-memory services

    A key service, a bucket and a disk that live in one record, to run the
    handler on concrete requests.  The bucket refuses to overwrite an
    existing object, as Supabase storage does when [upsert] is not set; the
    disk refuses to write into a directory that does not exist. *)

Module InMemory.

Record World := {
  credentials : bool;
  keys_available : bool;
  bucket_writable : bool;
  bucket : gmap string Blob.t;
  dirs : gset string;
  files : gmap string Buffer.t
}.

(** A parsed JSON document is kept as its text. *)
Definition Json := string.
Definition Client := unit.

Definition seal (plaintext : string) : Json := "ct:" +:+ plaintext.

Definition unseal (j : Json) : option string :=
  match j with
  | String "c" (String "t" (String ":" plaintext)) => Some plaintext
  | _ => None
  end.

Definition error_of (msg : string) : Error.t :=
  {| Error.name := "Error"; Error.message := msg; Error.stack := "" |}.

Definition protect (schemas : list ProtectTable) (w : World) : Outcome Client * World :=
  if credentials w then (Resolved tt, w)
  else (Rejected (error_of "[protect]: missing client credentials"), w).

Definition encrypt (_ : Client) (plaintext : string) (_ : EncryptOptions) (w : World) :
    Outcome (Result Json) * World :=
  if keys_available w then (Resolved (Data (seal plaintext)), w)
  else (Resolved (Failure {| failure_message := "key service unavailable" |}), w).

Definition decrypt (_ : Client) (j : Json) (w : World) : Outcome (Result string) * World :=
  if keys_available w then
    match unseal j with
    | Some plaintext => (Resolved (Data plaintext), w)
    | None => (Resolved (Failure {| failure_message := "not an encrypted payload" |}), w)
    end
  else (Resolved (Failure {| failure_message := "key service unavailable" |}), w).

Definition put (path : string) (b : Blob.t) (w : World) : World :=
  {| credentials := credentials w;
     keys_available := keys_available w;
     bucket_writable := bucket_writable w;
     bucket := <[path := b]> (bucket w);
     dirs := dirs w;
     files := files w |}.

Definition upload (_ path : string) (f : File.t) (w : World) :
    Outcome (StorageReply string) * World :=
  if negb (bucket_writable w) then
    (Resolved {| data := None;
                 error := Some {| storage_message := "new row violates row-level security policy" |} |}, w)
  else
    match bucket w !! path with
    | Some _ =>
        (Resolved {| data := None;
                     error := Some {| storage_message := "The resource already exists" |} |}, w)
    | None =>
        (Resolved {| data := Some path; error := None |},
         put path {| Blob.type := File.type f; Blob.content := File.content f |} w)
    end.

Definition download (_ path : string) (w : World) :
    Outcome (StorageReply Blob.t) * World :=
  match bucket w !! path with
  | Some b => (Resolved {| data := Some b; error := None |}, w)
  | None =>
      (Resolved {| data := None;
                   error := Some {| storage_message := "Object not found" |} |}, w)
  end.

(** The part of a path before its last [/]. *)
Fixpoint dirname (p : string) : option string :=
  match p with
  | EmptyString => None
  | String c rest =>
      match dirname rest with
      | Some d => Some (String c d)
      | None => if Ascii.eqb c "/" then Some EmptyString else None
      end
  end.

Definition store (path : string) (buf : Buffer.t) (w : World) : World :=
  {| credentials := credentials w;
     keys_available := keys_available w;
     bucket_writable := bucket_writable w;
     bucket := bucket w;
     dirs := dirs w;
     files := <[path := buf]> (files w) |}.

Definition writeFile (path : string) (buf : Buffer.t) (w : World) : Outcome unit * World :=
  match dirname path with
  | Some d =>
      if bool_decide (d ∈ dirs w) then (Resolved tt, store path buf w)
      else (Rejected (error_of ("ENOENT: no such file or directory, open " +:+ path)), w)
  | None => (Rejected (error_of ("ENOENT: no such file or directory, open " +:+ path)), w)
  end.

Definition join (a b : string) : string := a +:+ "/" +:+ b.

Definition services : Services World Json Client :=
  Build_Services World Json Client
    protect encrypt decrypt upload download writeFile
    (fun j => j) (fun s => Resolved s) join "/app".

(** A deployment as the README sets it up, with an empty bucket. *)
Definition fresh : World :=
  {| credentials := true;
     keys_available := true;
     bucket_writable := true;
     bucket := ∅;
     dirs := {[ "/app"; "/app/uploads" ]};
     files := ∅ |}.

(** The same, before anyone created [uploads/]. *)
Definition without_uploads_dir : World :=
  {| credentials := true;
     keys_available := true;
     bucket_writable := true;
     bucket := ∅;
     dirs := {[ "/app" ]};
     files := ∅ |}.

Definition without_credentials : World :=
  {| credentials := false;
     keys_available := true;
     bucket_writable := true;
     bucket := ∅;
     dirs := {[ "/app"; "/app/uploads" ]};
     files := ∅ |}.

Definition keys_down : World :=
  {| credentials := true;
     keys_available := false;
     bucket_writable := true;
     bucket := ∅;
     dirs := {[ "/app"; "/app/uploads" ]};
     files := ∅ |}.

Definition read_only_bucket : World :=
  {| credentials := true;
     keys_available := true;
     bucket_writable := false;
     bucket := ∅;
     dirs := {[ "/app"; "/app/uploads" ]};
     files := ∅ |}.

(** A bucket that already holds something else under [a.txt.encrypted]. *)
Definition foreign_object : World :=
  put "a.txt.encrypted"
      {| Blob.type := "text/plain"; Blob.content := list_byte_of_string "hello" |}
      fresh.

(** Requests. *)
Definition post (name type : string) (content : list byte) : HonoContext :=
  {| req_formData :=
       Resolved [("file", FormData.EntryFile
                    {| File.name := name; File.type := type; File.content := content |})] |}.

Definition a_txt : HonoContext := post "a.txt" "text/plain" (list_byte_of_string "0123456789").
Definition a_txt_again : HonoContext := post "a.txt" "text/plain" (list_byte_of_string "changed").
Definition no_file : HonoContext := {| req_formData := Resolved [] |}.
Definition text_field : HonoContext :=
  {| req_formData := Resolved [("file", FormData.EntryString "a.txt")] |}.

Definition opts : EncryptOptions := {| table := uploads; column := "file" |}.

Definition a_txt_file : File.t :=
  {| File.name := "a.txt"; File.type := "text/plain";
     File.content := list_byte_of_string "0123456789" |}.

(** The world the first upload of [a.txt] leaves behind. *)
Definition after_first_upload : World := world_after services a_txt fresh.

(** The same services with a parser that throws on a text that is not an
    envelope, as [JSON.parse] does on a text that is not JSON. *)
Definition parse_envelope (s : string) : Outcome Json :=
  match unseal s with
  | Some _ => Resolved s
  | None =>
      Rejected {| Error.name := "SyntaxError";
                  Error.message := "Unexpected token in JSON at position 0";
                  Error.stack := "" |}
  end.

Definition strict_services : Services World Json Client :=
  Build_Services World Json Client
    protect encrypt decrypt upload download writeFile
    (fun j => j) parse_envelope join "/app".

(** A request whose body could not be parsed as a form. *)
Definition not_a_form : HonoContext :=
  {| req_formData :=
       Rejected {| Error.name := "TypeError";
                   Error.message := "Failed to parse body as FormData";
                   Error.stack := "" |} |}.


End InMemory.

(** ** Shapes of a run *)

(** The calls of a run that got as far as [writeFile]: the client was
    built, [encrypt] answered with data, [upload] returned, [download]
    answered with an object, [decrypt] answered with data, and then the
    write was issued; [after] is what followed it. *)
Definition write_reached {Json Client} (tr : list (Event Json Client))
    (path : string) (buf : Buffer.t) (wr : Outcome unit)
    (after : list (Event Json Client)) : Prop :=
  exists client plaintext opts envelope key f ur dl blob payload decrypted,
    tr = EvProtect [uploads] (Resolved client)
         :: EvEncrypt plaintext opts (Resolved (Data envelope))
         :: EvUpload "uploads" key f (Resolved ur)
         :: EvDownload "uploads" key (Resolved dl)
         :: EvDecrypt payload (Resolved (Data decrypted))
         :: EvWriteFile path buf wr
         :: after
    /\ data dl = Some blob.

(** The only calls before a rejected form are the construction of the
    client. *)
Definition external_call {Json Client} (ev : Event Json Client) : bool :=
  is_encryption_call ev || is_store_call ev || is_writeFile ev.
(** ** The order of the calls *)

Inductive CallKind :=
| KProtect | KEncrypt | KUpload | KDownload | KDecrypt | KWriteFile.

Definition call_kind {Json Client} (ev : Event Json Client) : option CallKind :=
  match ev with
  | EvProtect _ _ => Some KProtect
  | EvEncrypt _ _ _ => Some KEncrypt
  | EvUpload _ _ _ _ => Some KUpload
  | EvDownload _ _ _ => Some KDownload
  | EvDecrypt _ _ => Some KDecrypt
  | EvWriteFile _ _ _ => Some KWriteFile
  | EvConsoleLog _ _ | EvConsoleError _ _ => None
  end.

(** The library calls of a run, in order, without the console. *)
Fixpoint calls {Json Client} (tr : list (Event Json Client)) : list CallKind :=
  match tr with
  | [] => []
  | ev :: rest =>
      match call_kind ev with
      | Some k => k :: calls rest
      | None => calls rest
      end
  end.

Definition pipeline : list CallKind :=
  [KProtect; KEncrypt; KUpload; KDownload; KDecrypt; KWriteFile].

(** The exception a call ended with, if it did. *)
Definition thrown_by {Json Client} (ev : Event Json Client) : option Error.t :=
  match ev with
  | EvProtect _ (Rejected e)
  | EvEncrypt _ _ (Rejected e)
  | EvUpload _ _ _ (Rejected e)
  | EvDownload _ _ (Rejected e)
  | EvDecrypt _ (Rejected e)
  | EvWriteFile _ _ (Rejected e) => Some e
  | _ => None
  end.

(** ** Start of the process *)

Module Startup.

(** [!process.env.X]: the variable is absent or the empty string. *)
Definition unset (v : option string) : bool :=
  match v with
  | None => true
  | Some s => String.eqb s ""
  end.

(** The top of the module: the check of the two Supabase variables, and
    the two arguments [createClient] is then called with.  [stack] is the
    stack the runtime records in the error. *)
Definition supabase_config (stack : string) (env : gmap string string) :
    Outcome (string * string) :=
  if unset (env !! "SUPABASE_URL") || unset (env !! "SUPABASE_ANON_KEY") then
    Rejected {| Error.name := "Error";
                Error.message := "SUPABASE_URL and SUPABASE_KEY must be set";
                Error.stack := stack |}
  else
    Resolved (default "" (env !! "SUPABASE_URL"),
              default "" (env !! "SUPABASE_ANON_KEY")).

End Startup.

(** ** Facts about the codec *)

Module BufferFacts.
Import Buffer BufferChecks.

Lemma below_spec (P : N -> bool) (k : nat) :
  forallb P (below k) = true -> forall n, n < N.of_nat k -> P n = true.
Proof.
  intros H n Hn. rewrite forallb_forall in H. apply H.
  unfold below. apply in_map_iff. exists (N.to_nat n). split.
  - apply N2Nat.id.
  - apply in_seq. lia.
Qed.

Lemma pairs_spec (P : N -> N -> bool) :
  pairs_ok P = true -> forall a b, a < 256 -> b < 256 -> P a b = true.
Proof.
  intros H a b Ha Hb.
  apply (below_spec (P a) 256); [|exact Hb].
  apply (below_spec (fun a => forallb (P a) (below 256)) 256); [exact H|exact Ha].
Qed.

Lemma unbase64_base64_char n :
  n < 64 -> unbase64 (base64_char n) = Some n.
Proof.
  intros Hn. pose proof (below_spec sextet_ok 64 eq_refl n Hn) as H.
  unfold sextet_ok in H. destruct (unbase64 (base64_char n)) as [m|]; [|discriminate].
  apply andb_true_iff in H as [H _]. apply N.eqb_eq in H. congruence.
Qed.

Lemma to_N_lt (x : byte) : Byte.to_N x < 256.
Proof. pose proof (Byte.to_N_bounded x). lia. Qed.

Lemma to_byte_to_N (x : byte) : to_byte (Byte.to_N x) = x.
Proof.
  unfold to_byte. replace (N.land (Byte.to_N x) 255) with (Byte.to_N x).
  - now rewrite Byte.of_to_N.
  - change 255 with (N.ones 8). rewrite N.land_ones. symmetry.
    apply N.mod_small. apply (to_N_lt x).
Qed.

Lemma sextets_char n rest :
  n < 64 -> sextets (String (base64_char n) rest) = n :: sextets rest.
Proof. intros Hn. simpl. now rewrite (unbase64_base64_char n Hn). Qed.

Lemma group_ok_all : pairs_ok group_ok = true.
Proof. vm_compute. reflexivity. Qed.

Lemma group_facts a b :
  a < 256 -> b < 256 ->
  (enc0 a < 64 /\ enc1 a b < 64 /\ enc2 a b < 64 /\ enc3 a < 64)
  /\ N.land (enc0 a) 63 = N.shiftr a 2
  /\ N.land (enc1 a b) 48 = N.shiftl (N.land a 3) 4
  /\ N.land (enc1 a b) 15 = N.shiftr b 4
  /\ N.land (enc2 a b) 60 = N.shiftl (N.land a 15) 2
  /\ N.land (enc2 a b) 3 = N.shiftr b 6
  /\ N.lor (N.shiftl (N.shiftr a 2) 2) (N.shiftr (N.shiftl (N.land a 3) 4) 4) = a
  /\ N.lor (N.shiftl (N.shiftr a 4) 4) (N.shiftr (N.shiftl (N.land a 15) 2) 2) = a
  /\ N.lor (N.shiftl (N.shiftr a 6) 6) (N.land (N.land a 63) 63) = a.
Proof.
  intros Ha Hb. pose proof (pairs_spec group_ok group_ok_all a b Ha Hb) as G.
  unfold group_ok in G.
  repeat rewrite andb_true_iff in G.
  repeat rewrite N.eqb_eq in G.
  repeat rewrite N.ltb_lt in G.
  tauto.
Qed.

Lemma enc_lt a b :
  a < 256 -> b < 256 ->
  enc0 a < 64 /\ enc1 a b < 64 /\ enc2 a b < 64 /\ enc3 a < 64.
Proof. intros Ha Hb. apply (group_facts a b Ha Hb). Qed.

Lemma dec0_enc x b :
  b < 256 -> dec0 (enc0 (Byte.to_N x)) (enc1 (Byte.to_N x) b) = x.
Proof.
  intros Hb. pose proof (to_N_lt x) as Ha.
  destruct (group_facts _ _ Ha Hb) as (_ & E0 & E1 & _ & _ & _ & R & _).
  unfold dec0. rewrite E0, E1, R. apply to_byte_to_N.
Qed.

Lemma dec1_enc a y c :
  a < 256 -> c < 256 ->
  dec1 (enc1 a (Byte.to_N y)) (enc2 (Byte.to_N y) c) = y.
Proof.
  intros Ha Hc. pose proof (to_N_lt y) as Hb.
  destruct (group_facts _ _ Ha Hb) as (_ & _ & _ & E1 & _).
  destruct (group_facts _ _ Hb Hc) as (_ & _ & _ & _ & E2 & _ & _ & R & _).
  unfold dec1. rewrite E1, E2, R. apply to_byte_to_N.
Qed.

Lemma dec2_enc b z :
  b < 256 -> dec2 (enc2 b (Byte.to_N z)) (enc3 (Byte.to_N z)) = z.
Proof.
  intros Hb. pose proof (to_N_lt z) as Hc.
  destruct (group_facts _ _ Hb Hc) as (_ & _ & _ & _ & _ & E1 & _).
  destruct (group_facts _ 0 Hc eq_refl) as (_ & _ & _ & _ & _ & _ & _ & _ & R).
  unfold dec2, enc3. rewrite E1, R. apply to_byte_to_N.
Qed.

(** Decoding what [toString('base64')] produced gives the buffer back. *)
Lemma from_base64_toString_aux (buf : t) :
  from_base64 (toString_base64 buf) = buf
  /\ (forall x, from_base64 (toString_base64 (x :: buf)) = x :: buf)
  /\ (forall x y, from_base64 (toString_base64 (x :: y :: buf)) = x :: y :: buf).
Proof.
  induction buf as [|z buf (IH0 & IH1 & IH2)].
  - split; [reflexivity|]. split.
    + intros x. pose proof (to_N_lt x) as Hx.
      destruct (enc_lt (Byte.to_N x) 0 Hx eq_refl) as (L0 & L1 & _).
      unfold from_base64. cbn [toString_base64].
      rewrite !sextets_char by assumption.
      change (sextets "==") with (@nil N). cbn [decode_groups].
      now rewrite dec0_enc.
    + intros x y. pose proof (to_N_lt x) as Hx. pose proof (to_N_lt y) as Hy.
      destruct (enc_lt (Byte.to_N x) (Byte.to_N y) Hx Hy) as (L0 & L1 & _).
      destruct (enc_lt (Byte.to_N y) 0 Hy eq_refl) as (_ & _ & L2 & _).
      unfold from_base64. cbn [toString_base64].
      rewrite !sextets_char by assumption.
      change (sextets "=") with (@nil N). cbn [decode_groups].
      rewrite dec0_enc by assumption. now rewrite dec1_enc.
  - split; [apply IH1|]. split; [intros x; apply IH2|].
    intros x y. pose proof (to_N_lt x) as Hx. pose proof (to_N_lt y) as Hy.
    pose proof (to_N_lt z) as Hz.
    destruct (enc_lt (Byte.to_N x) (Byte.to_N y) Hx Hy) as (L0 & L1 & _).
    destruct (enc_lt (Byte.to_N y) (Byte.to_N z) Hy Hz) as (_ & _ & L2 & _).
    destruct (enc_lt (Byte.to_N z) 0 Hz eq_refl) as (_ & _ & _ & L3).
    unfold from_base64 in *. cbn [toString_base64].
    rewrite !sextets_char by assumption. cbn [decode_groups].
    rewrite dec0_enc, dec1_enc, dec2_enc by assumption.
    now rewrite IH0.
Qed.

Lemma from_base64_toString (buf : t) :
  from_base64 (toString_base64 buf) = buf.
Proof. apply from_base64_toString_aux. Qed.

Lemma byteLength_from_base64_toString (buf : t) :
  byteLength (from_base64 (toString_base64 buf)) = byteLength buf.
Proof. now rewrite from_base64_toString. Qed.

End BufferFacts.

(** The branch taken at [if (!file || !(file instanceof File))] is the one
    the handler's [match] on the form value takes. *)
Lemma file_check (v : option FormData.FormDataEntryValue) :
  FormData.falsy v || negb (FormData.instanceof_File v) = false <->
  exists f, v = Some (FormData.EntryFile f).
Proof.
  destruct v as [[s|f]|]; simpl; split; try discriminate; eauto.
  - rewrite orb_true_r. discriminate.
  - intros [f [=]].
  - intros [f [=]].
Qed.

(** ** Properties of one request *)

(** Case analysis on every answer the outside world gives during a run,
    innermost call first. *)
Ltac run_step :=
  match goal with
  | |- context [match ?x with _ => _ end] =>
      lazymatch x with
      | context [match _ with _ => _ end] => fail
      | _ => destruct x eqn:?; simpl
      end
  end.

Ltac run_cases :=
  unfold response, trace, world_after, POST_upload, upload_handler,
    try_catch, bind, call, await, console, ret;
  simpl; repeat run_step.

(** Membership in a trace that has been computed. *)
Ltac trace_inv :=
  repeat match goal with
    | H : _ ∈ [] |- _ => apply elem_of_nil in H; destruct H
    | H : _ ∈ _ :: _ |- _ => apply elem_of_cons in H; destruct H as [H|H]
    | H : @eq (Event _ _) ?x _ |- _ =>
        first [is_var x; subst x; simpl | discriminate H | injection H as ?; subst]
    end.

(** Two answers to the same question are the same answer. *)
Ltac same_answers :=
  repeat match goal with
    | H : Resolved _ = Resolved _ |- _ => injection H as ?; subst
    | H : Some _ = Some _ |- _ => injection H as ?; subst
    | H : ?x = _, H' : ?x = _ |- _ =>
        rewrite H in H';
        first [discriminate H' | injection H' as ?; subst | clear H']
    end.

Section Properties.
Context {World Json Client : Type}.
Variable S : Services World Json Client.

(** The [catch] block answers every exception: a request always gets a
    response. *)
Lemma handler_always_responds (c : HonoContext) (w : World) :
  exists r, response S c w = Resolved r.
Proof. run_cases; eauto. Qed.

(** C4. When [encrypt] answers with a failure indicator, the response is
    500 with the encryption-failure message, and the run contains no
    bucket call, no [decrypt] and no [writeFile]. *)
Theorem encrypt_failure_aborts (c : HonoContext) (w : World)
    (plaintext : string) (opts : EncryptOptions) (f : ProtectError) :
  EvEncrypt plaintext opts (Resolved (Failure f)) ∈ trace S c w ->
  response S c w = Resolved (c_json (ErrorBody "Failed to encrypt file") 500)
  /\ forall ev, ev ∈ trace S c w ->
       is_store_call ev = false /\ is_decrypt ev = false /\ is_writeFile ev = false.
Proof.
  run_cases; intros H; trace_inv.
  split; [reflexivity|]. intros ev Hev. trace_inv; auto.
Qed.

(** C6. When [download] answers without an object, the response is 500
    with the download-failure message, and the run contains no [decrypt]
    and no [writeFile]; the key asked for is the one of the upload. *)
Theorem download_failure_aborts (c : HonoContext) (w : World)
    (bucket path : string) (reply : StorageReply Blob.t) :
  EvDownload bucket path (Resolved reply) ∈ trace S c w ->
  data reply = None ->
  response S c w = Resolved (c_json (ErrorBody "Failed to download file") 500)
  /\ (exists fd file, req_formData c = Resolved fd
        /\ FormData.get fd "file" = Some (FormData.EntryFile file)
        /\ bucket = "uploads" /\ path = File.name file +:+ ".encrypted")
  /\ forall ev, ev ∈ trace S c w -> is_decrypt ev = false /\ is_writeFile ev = false.
Proof.
  run_cases; intros H Hnone; trace_inv; try congruence.
  split; [reflexivity|]. split; [eauto 10|].
  intros ev Hev. trace_inv; auto.
Qed.

(** C7. When [decrypt] answers with a failure indicator, the response is
    500 with the decryption-failure message, and the run contains no
    [writeFile]. *)
Theorem decrypt_failure_aborts (c : HonoContext) (w : World)
    (payload : Json) (f : ProtectError) :
  EvDecrypt payload (Resolved (Failure f)) ∈ trace S c w ->
  response S c w = Resolved (c_json (ErrorBody "Failed to decrypt file") 500)
  /\ forall ev, ev ∈ trace S c w -> is_writeFile ev = false.
Proof.
  run_cases; intros H; trace_inv.
  split; [reflexivity|]. intros ev Hev. trace_inv; auto.
Qed.

(** C8. When the last step, the write of the reconstructed file, has
    returned (it is only issued after the five steps before it), the
    response is 200 and its body holds the success message and the name,
    type and size of the uploaded file, and nothing else. *)
Theorem success_response (c : HonoContext) (w : World)
    (fd : FormData.t) (file : File.t) (path : string) (buf : Buffer.t) :
  req_formData c = Resolved fd ->
  FormData.get fd "file" = Some (FormData.EntryFile file) ->
  EvWriteFile path buf (Resolved tt) ∈ trace S c w ->
  response S c w =
    Resolved
      (c_json
         (UploadedBody "File uploaded successfully"
            {| details_name := File.name file;
               details_type := File.type file;
               details_size := File.size file |})
         200)
  /\ exists after, write_reached (trace S c w) path buf (Resolved tt) after.
Proof.
  intros Hfd Hfile. run_cases; intros H; trace_inv; same_answers.
  split; [reflexivity|]. eexists. unfold write_reached. eauto 20.
Qed.

(** C9, as the code has it.  A response other than 200 comes with no
    [writeFile] call at all, except when it is the write itself that threw;
    and a [writeFile] call is only made after the client was built,
    [encrypt] answered with data, the [upload] call returned, [download]
    answered with an object and [decrypt] answered with data.  Of the
    upload nothing more is said: whether it stored the object is not
    looked at before the write. *)
Theorem no_write_before_all_steps (c : HonoContext) (w : World) :
  (forall r, response S c w = Resolved r -> status r <> 200 ->
     (forall ev, ev ∈ trace S c w -> is_writeFile ev = false)
     \/ (exists path buf err,
           write_reached (trace S c w) path buf (Rejected err)
             [EvConsoleError "Detailed error:" err]
           /\ r = c_json (ErrorDetailsBody "Failed to upload file" (Error.message err)) 500))
  /\ (forall path buf wr, EvWriteFile path buf wr ∈ trace S c w ->
        exists after, write_reached (trace S c w) path buf wr after).
Proof.
  run_cases; split.
  all: try (intros path buf wr H; trace_inv; eexists; unfold write_reached; eauto 20).
  all: intros r Hr Hst; injection Hr as <-; simpl in Hst; try congruence.
  all: try (left; intros ev Hev; trace_inv; auto; fail).
  right. do 3 eexists. split; [|reflexivity]. unfold write_reached. eauto 20.
Qed.

(** C10. When [writeFile] throws (as it does when [uploads/] does not
    exist), the response is the catch-all 500 with the message of that
    exception, although [encrypt], [upload], [download] and [decrypt]
    all answered; the run consists of these calls, the write and the
    error log, so nothing created the directory before the write. *)
Theorem write_failure_is_500 (c : HonoContext) (w : World)
    (path : string) (buf : Buffer.t) (err : Error.t) :
  EvWriteFile path buf (Rejected err) ∈ trace S c w ->
  response S c w =
    Resolved (c_json (ErrorDetailsBody "Failed to upload file" (Error.message err)) 500)
  /\ write_reached (trace S c w) path buf (Rejected err)
       [EvConsoleError "Detailed error:" err]
  /\ (exists fd file, req_formData c = Resolved fd
        /\ FormData.get fd "file" = Some (FormData.EntryFile file)
        /\ path = join S (join S (process_cwd S) "uploads") (File.name file)).
Proof.
  run_cases; intros H; trace_inv.
  split; [reflexivity|]. split; [unfold write_reached; eauto 20|eauto 10].
Qed.

(** C3, as the code has it.  Once the client has been built and the form
    parsed, a form without a [file] field, or with a [file] field that is
    not a file, is answered with 400; the construction of the client is
    the only call of the run: nothing is encrypted, stored, fetched,
    decrypted or written. *)
Theorem bad_input_is_rejected (c : HonoContext) (w w1 : World)
    (client : Client) (fd : FormData.t) :
  protect S [uploads] w = (Resolved client, w1) ->
  req_formData c = Resolved fd ->
  (FormData.get fd "file" = None
   \/ exists s, FormData.get fd "file" = Some (FormData.EntryString s)) ->
  response S c w =
    Resolved (c_json (ErrorBody "No file provided or invalid file format") 400)
  /\ trace S c w = [EvProtect [uploads] (Resolved client)]
  /\ world_after S c w = w1
  /\ forall ev, ev ∈ trace S c w -> external_call ev = false.
Proof.
  intros Hp Hfd Hbad.
  unfold response, trace, world_after, POST_upload, upload_handler,
    try_catch, bind, call, await, console, ret.
  simpl. rewrite Hp, Hfd. simpl.
  destruct Hbad as [Hget|[s Hget]]; rewrite Hget; simpl.
  all: repeat split; try reflexivity; intros ev Hev; trace_inv; reflexivity.
Qed.

(** C2. Every upload of a run is the upload of the JSON text of what
    [encrypt] answered for the base64 text of the file, in a file of type
    [application/json] named after the original with [.encrypted]
    appended, under that same key of the bucket [uploads]; and a run
    uploads at most once. *)
Theorem bucket_receives_only_the_envelope (c : HonoContext) (w : World)
    (bucket path : string) (f : File.t) (r : Outcome (StorageReply string)) :
  EvUpload bucket path f r ∈ trace S c w ->
  (exists fd file opts envelope,
      req_formData c = Resolved fd
      /\ FormData.get fd "file" = Some (FormData.EntryFile file)
      /\ EvEncrypt (Buffer.toString_base64 (File.arrayBuffer file)) opts
           (Resolved (Data envelope)) ∈ trace S c w
      /\ bucket = "uploads"
      /\ path = File.name file +:+ ".encrypted"
      /\ f = {| File.name := File.name file +:+ ".encrypted";
                File.type := "application/json";
                File.content := list_byte_of_string (JSON_stringify S envelope) |})
  /\ length (List.filter is_upload (trace S c w)) = 1%nat.
Proof.
  run_cases; intros H; trace_inv.
  all: split; [|reflexivity].
  all: do 4 eexists; repeat split; try eassumption; try reflexivity.
  all: apply elem_of_cons; right; apply elem_of_cons; left; reflexivity.
Qed.

(** C5. When [upload] answers with an error, the next call of the run is
    the [download] of the same key; and the response, the world the run
    leaves and all its other calls are those of the run in which the
    storage client reports the upload as stored. *)
Theorem upload_error_is_ignored (c : HonoContext) (w : World)
    (bucket path : string) (f : File.t) (reply : StorageReply string)
    (err : StorageError) :
  EvUpload bucket path f (Resolved reply) ∈ trace S c w ->
  error reply = Some err ->
  (exists before r after,
      trace S c w =
        (before ++ EvUpload bucket path f (Resolved reply)
                :: EvDownload bucket path r :: after)%list)
  /\ response (with_upload_reported_stored S) c w = response S c w
  /\ world_after (with_upload_reported_stored S) c w = world_after S c w
  /\ List.filter (fun ev => negb (is_upload ev))
       (trace (with_upload_reported_stored S) c w)
     = List.filter (fun ev => negb (is_upload ev)) (trace S c w).
Proof.
  unfold with_upload_reported_stored, reported_stored.
  run_cases; intros H Herr; trace_inv.
  all: split; [eexists [_; _], _, _; reflexivity|].
  all: repeat split; reflexivity.
Qed.

(** The upload's answer is never read, whatever it is. *)
Lemma upload_reply_unused (c : HonoContext) (w : World) :
  response (with_upload_reported_stored S) c w = response S c w
  /\ world_after (with_upload_reported_stored S) c w = world_after S c w.
Proof.
  unfold with_upload_reported_stored, reported_stored.
  run_cases; split; reflexivity.
Qed.

(** X3. The round trip of the payload, under the assumptions it needs: the
    JSON text parses back to the value, what [decrypt] answers for an
    envelope is the text [encrypt] was given, and the object fetched from
    the bucket has the content of the file this request uploaded.  Then
    the bytes handed to [writeFile] are the bytes of the uploaded file,
    and the path is [uploads/<name>] under the working directory. *)
Theorem round_trip_when_stored (c : HonoContext) (w : World)
    (fd : FormData.t) (file : File.t) (bucket key path : string) (f : File.t)
    (ur : Outcome (StorageReply string)) (dl : StorageReply Blob.t)
    (blob : Blob.t) (buf : Buffer.t) (wr : Outcome unit) :
  (forall j, JSON_parse S (JSON_stringify S j) = Resolved j) ->
  (forall client client' plaintext opts w1 w1' envelope w2 w2' decrypted,
      encrypt S client plaintext opts w1 = (Resolved (Data envelope), w1') ->
      decrypt S client' envelope w2 = (Resolved (Data decrypted), w2') ->
      decrypted = plaintext) ->
  req_formData c = Resolved fd ->
  FormData.get fd "file" = Some (FormData.EntryFile file) ->
  EvUpload bucket key f ur ∈ trace S c w ->
  EvDownload bucket key (Resolved dl) ∈ trace S c w ->
  data dl = Some blob ->
  Blob.content blob = File.content f ->
  EvWriteFile path buf wr ∈ trace S c w ->
  path = join S (join S (process_cwd S) "uploads") (File.name file)
  /\ buf = File.content file.
Proof.
  intros Hjson Hcrypt Hfd Hfile.
  run_cases; intros Hup Hdown Hdata Hcontent Hwrite; trace_inv; same_answers.
  all: split; [reflexivity|].
  all: match goal with
       | Hp : JSON_parse S (Blob.text ?b) = Resolved ?j,
         Hc : Blob.content ?b = _ |- _ =>
           unfold Blob.text in Hp; rewrite Hc in Hp; simpl in Hp;
           rewrite string_of_list_byte_of_string, Hjson in Hp;
           injection Hp as <-
       end.
  all: match goal with
       | He : encrypt S _ _ _ _ = (Resolved (Data ?e), _),
         Hd : decrypt S _ ?e _ = (Resolved (Data ?d), _) |- _ =>
           rewrite (Hcrypt _ _ _ _ _ _ _ _ _ _ He Hd)
       end.
  all: apply BufferFacts.from_base64_toString.
Qed.

End Properties.

(** ** Runs on the in-memory services *)

Module Runs.
Import InMemory.

(** The in-memory client decrypts what it encrypted. *)
Lemma decrypt_encrypt (plaintext : string) (o : EncryptOptions) (w w' : World) :
  keys_available w = true -> keys_available w' = true ->
  exists envelope,
    encrypt tt plaintext o w = (Resolved (Data envelope), w)
    /\ decrypt tt envelope w' = (Resolved (Data plaintext), w').
Proof.
  intros Hw Hw'. exists (seal plaintext). unfold encrypt, decrypt.
  rewrite Hw, Hw'. split; reflexivity.
Qed.

Lemma decrypt_encrypted
    (client client' : Client) (plaintext : string) (o : EncryptOptions)
    (w1 w1' : World) (envelope : Json) (w2 w2' : World) (decrypted : string) :
  encrypt client plaintext o w1 = (Resolved (Data envelope), w1') ->
  decrypt client' envelope w2 = (Resolved (Data decrypted), w2') ->
  decrypted = plaintext.
Proof.
  unfold encrypt, decrypt.
  destruct (keys_available w1); [|discriminate].
  intros [= <- _]. destruct (keys_available w2); [|discriminate].
  simpl. intros [= <- _]. reflexivity.
Qed.

(** The scenario of the specification: a 10-byte [a.txt]. *)
Example a_txt_scenario :
  response services a_txt fresh =
    Resolved (c_json (UploadedBody "File uploaded successfully"
                        {| details_name := "a.txt"; details_type := "text/plain";
                           details_size := 10 |}) 200)
  /\ bucket (world_after services a_txt fresh) !! "a.txt.encrypted" =
       Some {| Blob.type := "application/json";
               Blob.content := list_byte_of_string "ct:MDEyMzQ1Njc4OQ==" |}
  /\ files (world_after services a_txt fresh) !! "/app/uploads/a.txt" =
       Some (list_byte_of_string "0123456789").
Proof. vm_compute. repeat split. Qed.

Example base64_examples :
  Buffer.toString_base64 (list_byte_of_string "Man") = "TWFu"
  /\ Buffer.toString_base64 (list_byte_of_string "Ma") = "TWE="
  /\ Buffer.toString_base64 (list_byte_of_string "M") = "TQ=="
  /\ Buffer.from_base64 "TWE=" = list_byte_of_string "Ma"
  /\ Buffer.from_base64 "TW Fu" = list_byte_of_string "Man".
Proof. vm_compute. repeat split. Qed.

(** No run creates a directory: the handler has no call that could, so
    the directories of the disk are those it started with. *)
Lemma handler_creates_no_directory (c : HonoContext) (w : World) :
  dirs (world_after services c w) = dirs w.
Proof.
  unfold services.
  unfold response, trace, world_after, POST_upload, upload_handler,
    try_catch, bind, call, await, console, ret.
  simpl.
  unfold protect, encrypt, upload, download, decrypt, writeFile.
  repeat run_step; reflexivity.
Qed.

End Runs.

(** C1, on the code.  The first upload of [a.txt] stores its envelope.  A
    second upload of a different [a.txt] is refused by the bucket, which
    does not overwrite; the handler does not look at that answer, fetches
    the first envelope, and writes the first file's bytes to
    [uploads/a.txt], with a 200 response that describes the second file.
    The in-memory client decrypts what it encrypted. *)
Theorem second_upload_writes_first_content :
  response InMemory.services InMemory.a_txt_again InMemory.after_first_upload =
    Resolved (c_json (UploadedBody "File uploaded successfully"
                        {| details_name := "a.txt"; details_type := "text/plain";
                           details_size := 7 |}) 200)
  /\ EvUpload "uploads" "a.txt.encrypted"
       {| File.name := "a.txt.encrypted"; File.type := "application/json";
          File.content := list_byte_of_string "ct:Y2hhbmdlZA==" |}
       (Resolved {| data := None;
                    error := Some {| storage_message := "The resource already exists" |} |})
     ∈ trace InMemory.services InMemory.a_txt_again InMemory.after_first_upload
  /\ EvWriteFile "/app/uploads/a.txt" (list_byte_of_string "0123456789") (Resolved tt)
     ∈ trace InMemory.services InMemory.a_txt_again InMemory.after_first_upload
  /\ InMemory.files
       (world_after InMemory.services InMemory.a_txt_again InMemory.after_first_upload)
       !! "/app/uploads/a.txt" = Some (list_byte_of_string "0123456789")
  /\ list_byte_of_string "0123456789" <> list_byte_of_string "changed".
Proof.
  split; [|split; [|split; [|split]]].
  - vm_compute. reflexivity.
  - vm_compute. repeat constructor.
  - vm_compute. repeat constructor.
  - vm_compute. reflexivity.
  - vm_compute. discriminate.
Qed.

(** C2 on the 10-byte [a.txt]. *)
Lemma bucket_receives_only_the_envelope_witness :
  EvUpload "uploads" "a.txt.encrypted"
    {| File.name := "a.txt.encrypted"; File.type := "application/json";
       File.content := list_byte_of_string "ct:MDEyMzQ1Njc4OQ==" |}
    (Resolved {| data := Some "a.txt.encrypted"; error := None |})
  ∈ trace InMemory.services InMemory.a_txt InMemory.fresh
  /\ length (List.filter is_upload (trace InMemory.services InMemory.a_txt InMemory.fresh)) = 1%nat.
Proof.
  assert (H : EvUpload "uploads" "a.txt.encrypted"
    {| File.name := "a.txt.encrypted"; File.type := "application/json";
       File.content := list_byte_of_string "ct:MDEyMzQ1Njc4OQ==" |}
    (Resolved {| data := Some "a.txt.encrypted"; error := None |})
    ∈ trace InMemory.services InMemory.a_txt InMemory.fresh)
    by (vm_compute; repeat constructor).
  split; [exact H|].
  exact (proj2 (bucket_receives_only_the_envelope InMemory.services _ _ _ _ _ _ H)).
Defined.

(** C3 as stated fails: without client credentials the construction of the
    client throws before the form is looked at, and a request without a
    [file] field is answered with the catch-all 500. *)
Lemma no_file_without_credentials :
  req_formData InMemory.no_file = Resolved []
  /\ FormData.get [] "file" = None
  /\ response InMemory.services InMemory.no_file InMemory.without_credentials =
       Resolved (c_json (ErrorDetailsBody "Failed to upload file"
                           "[protect]: missing client credentials") 500)
  /\ response InMemory.services InMemory.no_file InMemory.without_credentials <>
       Resolved (c_json (ErrorBody "No file provided or invalid file format") 400).
Proof.
  split; [reflexivity|]. split; [reflexivity|]. split.
  - vm_compute. reflexivity.
  - vm_compute. discriminate.
Qed.

(** C3 as the code has it, on a form without fields and on a form whose
    [file] field is a string. *)
Lemma bad_input_is_rejected_witness :
  response InMemory.services InMemory.no_file InMemory.fresh =
    Resolved (c_json (ErrorBody "No file provided or invalid file format") 400)
  /\ trace InMemory.services InMemory.text_field InMemory.fresh =
       [EvProtect [uploads] (Resolved tt)].
Proof.
  split.
  - exact (proj1 (bad_input_is_rejected InMemory.services InMemory.no_file
                    InMemory.fresh InMemory.fresh tt [] eq_refl eq_refl
                    (or_introl eq_refl))).
  - exact (proj1 (proj2 (bad_input_is_rejected InMemory.services InMemory.text_field
                    InMemory.fresh InMemory.fresh tt
                    [("file", FormData.EntryString "a.txt")] eq_refl eq_refl
                    (or_intror (ex_intro _ "a.txt" eq_refl))))).
Defined.

(** C4 with the key service down. *)
Lemma encrypt_failure_aborts_witness :
  EvEncrypt "MDEyMzQ1Njc4OQ==" InMemory.opts
    (Resolved (Failure {| failure_message := "key service unavailable" |}))
  ∈ trace InMemory.services InMemory.a_txt InMemory.keys_down
  /\ response InMemory.services InMemory.a_txt InMemory.keys_down =
       Resolved (c_json (ErrorBody "Failed to encrypt file") 500).
Proof.
  assert (H : EvEncrypt "MDEyMzQ1Njc4OQ==" InMemory.opts
    (Resolved (Failure {| failure_message := "key service unavailable" |}))
    ∈ trace InMemory.services InMemory.a_txt InMemory.keys_down)
    by (vm_compute; repeat constructor).
  split; [exact H|].
  exact (proj1 (encrypt_failure_aborts InMemory.services _ _ _ _ _ H)).
Defined.

(** C5 with a bucket that refuses the write: the download follows and is
    the call that fails. *)
Lemma upload_error_is_ignored_witness :
  EvUpload "uploads" "a.txt.encrypted"
    {| File.name := "a.txt.encrypted"; File.type := "application/json";
       File.content := list_byte_of_string "ct:MDEyMzQ1Njc4OQ==" |}
    (Resolved {| data := None;
                 error := Some {| storage_message := "new row violates row-level security policy" |} |})
  ∈ trace InMemory.services InMemory.a_txt InMemory.read_only_bucket
  /\ response (with_upload_reported_stored InMemory.services)
       InMemory.a_txt InMemory.read_only_bucket =
     response InMemory.services InMemory.a_txt InMemory.read_only_bucket.
Proof.
  assert (H : EvUpload "uploads" "a.txt.encrypted"
    {| File.name := "a.txt.encrypted"; File.type := "application/json";
       File.content := list_byte_of_string "ct:MDEyMzQ1Njc4OQ==" |}
    (Resolved {| data := None;
                 error := Some {| storage_message := "new row violates row-level security policy" |} |})
    ∈ trace InMemory.services InMemory.a_txt InMemory.read_only_bucket)
    by (vm_compute; repeat constructor).
  split; [exact H|].
  exact (proj1 (proj2 (upload_error_is_ignored InMemory.services _ _ _ _ _ _
                         {| storage_message := "new row violates row-level security policy" |}
                         H eq_refl))).
Defined.

(** C6 with the same bucket: nothing was stored, nothing is found. *)
Lemma download_failure_aborts_witness :
  EvDownload "uploads" "a.txt.encrypted"
    (Resolved {| data := None;
                 error := Some {| storage_message := "Object not found" |} |})
  ∈ trace InMemory.services InMemory.a_txt InMemory.read_only_bucket
  /\ response InMemory.services InMemory.a_txt InMemory.read_only_bucket =
       Resolved (c_json (ErrorBody "Failed to download file") 500).
Proof.
  assert (H : EvDownload "uploads" "a.txt.encrypted"
    (Resolved {| data := None;
                 error := Some {| storage_message := "Object not found" |} |})
    ∈ trace InMemory.services InMemory.a_txt InMemory.read_only_bucket)
    by (vm_compute; repeat constructor).
  split; [exact H|].
  exact (proj1 (download_failure_aborts InMemory.services _ _ _ _ _ H eq_refl)).
Defined.

(** C7 with a bucket that holds something that is not an envelope. *)
Lemma decrypt_failure_aborts_witness :
  EvDecrypt ("hello" : InMemory.Json)
    (Resolved (Failure {| failure_message := "not an encrypted payload" |}))
  ∈ trace InMemory.services InMemory.a_txt InMemory.foreign_object
  /\ response InMemory.services InMemory.a_txt InMemory.foreign_object =
       Resolved (c_json (ErrorBody "Failed to decrypt file") 500).
Proof.
  assert (H : EvDecrypt ("hello" : InMemory.Json)
    (Resolved (Failure {| failure_message := "not an encrypted payload" |}))
    ∈ trace InMemory.services InMemory.a_txt InMemory.foreign_object)
    by (vm_compute; repeat constructor).
  split; [exact H|].
  exact (proj1 (decrypt_failure_aborts InMemory.services _ _ _ _ H)).
Defined.

(** C8 on the 10-byte [a.txt]. *)
Lemma success_response_witness :
  EvWriteFile "/app/uploads/a.txt" (list_byte_of_string "0123456789") (Resolved tt)
  ∈ trace InMemory.services InMemory.a_txt InMemory.fresh
  /\ response InMemory.services InMemory.a_txt InMemory.fresh =
       Resolved (c_json (UploadedBody "File uploaded successfully"
                           {| details_name := "a.txt"; details_type := "text/plain";
                              details_size := 10 |}) 200).
Proof.
  assert (H : EvWriteFile "/app/uploads/a.txt" (list_byte_of_string "0123456789")
                (Resolved tt)
    ∈ trace InMemory.services InMemory.a_txt InMemory.fresh)
    by (vm_compute; repeat constructor).
  split; [exact H|].
  exact (proj1 (success_response InMemory.services InMemory.a_txt InMemory.fresh
                  _ InMemory.a_txt_file _ _ eq_refl eq_refl H)).
Defined.

(** C9 as stated fails: a write is made although one of the four steps
    before it did not succeed.  On the second upload of [a.txt] the bucket
    answers the upload with an error, and the run goes on to the write. *)
Lemma write_after_refused_upload :
  EvUpload "uploads" "a.txt.encrypted"
    {| File.name := "a.txt.encrypted"; File.type := "application/json";
       File.content := list_byte_of_string "ct:Y2hhbmdlZA==" |}
    (Resolved {| data := None;
                 error := Some {| storage_message := "The resource already exists" |} |})
  ∈ trace InMemory.services InMemory.a_txt_again InMemory.after_first_upload
  /\ error (A := string)
       {| data := None;
          error := Some {| storage_message := "The resource already exists" |} |}
     <> None
  /\ (exists path buf,
        EvWriteFile path buf (Resolved tt)
        ∈ trace InMemory.services InMemory.a_txt_again InMemory.after_first_upload)
  /\ ~ (forall ev,
          ev ∈ trace InMemory.services InMemory.a_txt_again InMemory.after_first_upload ->
          is_writeFile ev = false).
Proof.
  split; [vm_compute; repeat constructor|].
  split; [discriminate|].
  assert (Hw : EvWriteFile "/app/uploads/a.txt" (list_byte_of_string "0123456789")
                 (Resolved tt)
    ∈ trace InMemory.services InMemory.a_txt_again InMemory.after_first_upload)
    by (vm_compute; repeat constructor).
  split; [eauto|].
  intros Hnone. specialize (Hnone _ Hw). discriminate Hnone.
Qed.

(** C9 with the key service down: a 500 and no write. *)
Lemma no_write_before_all_steps_witness :
  status (c_json (ErrorBody "Failed to encrypt file") 500) <> 200
  /\ ((forall ev, ev ∈ trace InMemory.services InMemory.a_txt InMemory.keys_down ->
         is_writeFile ev = false)
      \/ exists path buf err,
           write_reached (trace InMemory.services InMemory.a_txt InMemory.keys_down)
             path buf (Rejected err) [EvConsoleError "Detailed error:" err]
           /\ c_json (ErrorBody "Failed to encrypt file") 500 =
              c_json (ErrorDetailsBody "Failed to upload file" (Error.message err)) 500).
Proof.
  assert (H : status (c_json (ErrorBody "Failed to encrypt file") 500) <> 200)
    by (vm_compute; discriminate).
  split; [exact H|].
  exact (proj1 (no_write_before_all_steps InMemory.services InMemory.a_txt
                  InMemory.keys_down) _ eq_refl H).
Defined.

(** C10 before anyone created [uploads/]. *)
Lemma write_failure_is_500_witness :
  EvWriteFile "/app/uploads/a.txt" (list_byte_of_string "0123456789")
    (Rejected (InMemory.error_of
                 "ENOENT: no such file or directory, open /app/uploads/a.txt"))
  ∈ trace InMemory.services InMemory.a_txt InMemory.without_uploads_dir
  /\ response InMemory.services InMemory.a_txt InMemory.without_uploads_dir =
       Resolved (c_json (ErrorDetailsBody "Failed to upload file"
                           "ENOENT: no such file or directory, open /app/uploads/a.txt") 500).
Proof.
  assert (H : EvWriteFile "/app/uploads/a.txt" (list_byte_of_string "0123456789")
    (Rejected (InMemory.error_of
                 "ENOENT: no such file or directory, open /app/uploads/a.txt"))
    ∈ trace InMemory.services InMemory.a_txt InMemory.without_uploads_dir)
    by (vm_compute; repeat constructor).
  split; [exact H|].
  exact (proj1 (write_failure_is_500 InMemory.services _ _ _ _ _ H)).
Defined.

(** ** More about the codec *)

Lemma length_toString_base64_aux (buf : Buffer.t) :
  String.length (Buffer.toString_base64 buf) = (4 * ((length buf + 2) / 3))%nat
  /\ (forall x, String.length (Buffer.toString_base64 (x :: buf))
               = (4 * ((length (x :: buf) + 2) / 3))%nat)
  /\ (forall x y, String.length (Buffer.toString_base64 (x :: y :: buf))
                 = (4 * ((length (x :: y :: buf) + 2) / 3))%nat).
Proof.
  induction buf as [|z buf (IH0 & IH1 & IH2)].
  - repeat split; intros; reflexivity.
  - split; [apply IH1|]. split; [intros x; apply IH2|].
    intros x y. cbn [Buffer.toString_base64 String.length length].
    rewrite IH0.
    replace (S (S (S (length buf))) + 2)%nat with ((length buf + 2) + 1 * 3)%nat by lia.
    rewrite Nat.div_add by lia. lia.
Qed.

(** X1. Decoding the base64 text of a buffer gives the buffer back, so two
    buffers with the same base64 text are the same buffer. *)
Theorem base64_round_trip (buf : Buffer.t) :
  Buffer.from_base64 (Buffer.toString_base64 buf) = buf
  /\ forall buf', Buffer.toString_base64 buf = Buffer.toString_base64 buf' -> buf = buf'.
Proof.
  split; [apply BufferFacts.from_base64_toString|].
  intros buf' H.
  rewrite <- (BufferFacts.from_base64_toString buf), H.
  apply BufferFacts.from_base64_toString.
Qed.

(** ** More about one request *)

Ltac some_prefix :=
  first [ exists []; reflexivity
        | eexists [_]; reflexivity
        | eexists [_; _]; reflexivity
        | eexists [_; _; _]; reflexivity
        | eexists [_; _; _; _]; reflexivity
        | eexists [_; _; _; _; _]; reflexivity
        | eexists [_; _; _; _; _; _]; reflexivity ].

Section Coverage.
Context {World Json Client : Type}.
Variable S : Services World Json Client.

(** X2. What is handed to [encrypt] is the base64 text of the uploaded
    file, for column [file] of table [uploads]; so it decodes to the bytes
    of the file and is four characters long for every three bytes, rounded
    up. *)
Theorem encrypt_receives_base64 (c : HonoContext) (w : World)
    (plaintext : string) (opts : EncryptOptions) (r : Outcome (Result Json)) :
  EvEncrypt plaintext opts r ∈ trace S c w ->
  exists fd file,
    req_formData c = Resolved fd
    /\ FormData.get fd "file" = Some (FormData.EntryFile file)
    /\ plaintext = Buffer.toString_base64 (File.arrayBuffer file)
    /\ Buffer.from_base64 plaintext = File.content file
    /\ String.length plaintext = (4 * ((length (File.content file) + 2) / 3))%nat
    /\ opts = {| table := uploads; column := "file" |}.
Proof.
  run_cases; intros H; trace_inv.
  all: do 2 eexists; repeat split; try eassumption.
  all: first [ apply BufferFacts.from_base64_toString
             | apply length_toString_base64_aux ].
Qed.

(** X4. A call that throws is the last call of the run: the [catch] block
    logs the exception and answers 500 with its message. *)
Theorem rejected_call_ends_the_run (c : HonoContext) (w : World)
    (ev : Event Json Client) (err : Error.t) :
  ev ∈ trace S c w ->
  thrown_by ev = Some err ->
  response S c w =
    Resolved (c_json (ErrorDetailsBody "Failed to upload file" (Error.message err)) 500)
  /\ exists before,
       trace S c w = (before ++ [ev; EvConsoleError "Detailed error:" err])%list.
Proof.
  run_cases; intros H Hth; trace_inv; simpl in Hth; try discriminate.
  all: injection Hth as <-; split; [reflexivity|some_prefix].
Qed.

(** X5. When the text of the downloaded object does not parse as JSON,
    the response is the catch-all 500 with the parser's message, and
    nothing is decrypted or written. *)
Theorem unparsable_download_is_500 (c : HonoContext) (w : World)
    (bucket path : string) (dl : StorageReply Blob.t) (blob : Blob.t) (err : Error.t) :
  EvDownload bucket path (Resolved dl) ∈ trace S c w ->
  data dl = Some blob ->
  JSON_parse S (Blob.text blob) = Rejected err ->
  response S c w =
    Resolved (c_json (ErrorDetailsBody "Failed to upload file" (Error.message err)) 500)
  /\ (exists before,
        trace S c w =
          (before ++ [EvDownload bucket path (Resolved dl);
                      EvConsoleError "Detailed error:" err])%list)
  /\ forall ev', ev' ∈ trace S c w -> is_decrypt ev' = false /\ is_writeFile ev' = false.
Proof.
  run_cases; intros H Hdata Hparse; trace_inv; same_answers.
  split; [reflexivity|]. split; [some_prefix|].
  intros ev' Hev. trace_inv; auto.
Qed.

(** X6. When the body of the request cannot be read as a form, the
    response is the catch-all 500 with that exception's message; the client
    had been built, and nothing else was called. *)
Theorem unreadable_form_is_500 (c : HonoContext) (w w1 : World)
    (client : Client) (err : Error.t) :
  protect S [uploads] w = (Resolved client, w1) ->
  req_formData c = Rejected err ->
  response S c w =
    Resolved (c_json (ErrorDetailsBody "Failed to upload file" (Error.message err)) 500)
  /\ trace S c w = [EvProtect [uploads] (Resolved client);
                    EvConsoleError "Detailed error:" err]
  /\ world_after S c w = w1.
Proof.
  intros Hp Hfd.
  unfold response, trace, world_after, POST_upload, upload_handler,
    try_catch, bind, call, await, console, ret.
  simpl. rewrite Hp, Hfd. simpl. repeat split.
Qed.

(** X7. The library calls of a run are an initial part of: build the
    client, encrypt, upload, download, decrypt, write.  No call is made
    twice and none out of this order. *)
Theorem calls_follow_the_pipeline (c : HonoContext) (w : World) :
  calls (trace S c w) `prefix_of` pipeline.
Proof.
  run_cases; unfold pipeline; eexists; reflexivity.
Qed.

(** X8. What is handed to [decrypt] is the parsed text of the object that
    [download] answered with for the key [<name>.encrypted], with the
    client [protect] built; the value [encrypt] returned is not reused. *)
Theorem decrypt_receives_the_download (c : HonoContext) (w : World)
    (payload : Json) (r : Outcome (Result string)) :
  EvDecrypt payload r ∈ trace S c w ->
  exists fd file dl blob,
    req_formData c = Resolved fd
    /\ FormData.get fd "file" = Some (FormData.EntryFile file)
    /\ EvDownload "uploads" (File.name file +:+ ".encrypted") (Resolved dl) ∈ trace S c w
    /\ data dl = Some blob
    /\ JSON_parse S (Blob.text blob) = Resolved payload.
Proof.
  run_cases; intros H; trace_inv.
  all: do 4 eexists; repeat split; try eassumption.
  all: do 3 (apply elem_of_cons; right); apply elem_of_cons; left; reflexivity.
Qed.

(** X9. What is written to disk is the base64 decoding of the text
    [decrypt] answered with, at the path [join(join(cwd, 'uploads'), name)]
    with the name of the uploaded file. *)
Theorem write_receives_the_decryption (c : HonoContext) (w : World)
    (path : string) (buf : Buffer.t) (wr : Outcome unit) :
  EvWriteFile path buf wr ∈ trace S c w ->
  exists fd file payload decrypted,
    req_formData c = Resolved fd
    /\ FormData.get fd "file" = Some (FormData.EntryFile file)
    /\ EvDecrypt payload (Resolved (Data decrypted)) ∈ trace S c w
    /\ buf = Buffer.from_base64 decrypted
    /\ path = join S (join S (process_cwd S) "uploads") (File.name file).
Proof.
  run_cases; intros H; trace_inv.
  all: do 4 eexists; repeat split; try eassumption.
  all: do 4 (apply elem_of_cons; right); apply elem_of_cons; left; reflexivity.
Qed.

(** X10. Every request is answered, with status 200, 400 or 500, and the
    status is 200 exactly when the write of the reconstructed file
    returned. *)
Theorem status_is_200_400_or_500 (c : HonoContext) (w : World) :
  exists r,
    response S c w = Resolved r
    /\ (status r = 200 \/ status r = 400 \/ status r = 500)
    /\ (status r = 200 <->
        exists path buf, EvWriteFile path buf (Resolved tt) ∈ trace S c w).
Proof.
  run_cases; eexists; (split; [reflexivity|]); simpl; (split; [auto|]).
  all: split; [intros Hst|intros (path & buf & Hin)].
  all: try discriminate Hst.
  all: try (trace_inv; fail).
  - do 2 eexists. do 5 (apply elem_of_cons; right). apply elem_of_cons; left.
    match goal with u : unit |- _ => destruct u end. reflexivity.
  - reflexivity.
Qed.

(** X11. A 400 is only sent for a form that was read and has no file under
    [file]; the run then consists of the construction of the client. *)
Theorem only_bad_input_is_400 (c : HonoContext) (w : World) (r : Response) :
  response S c w = Resolved r ->
  status r = 400 ->
  r = c_json (ErrorBody "No file provided or invalid file format") 400
  /\ (exists fd, req_formData c = Resolved fd
        /\ (FormData.falsy (FormData.get fd "file")
            || negb (FormData.instanceof_File (FormData.get fd "file"))) = true)
  /\ exists client, trace S c w = [EvProtect [uploads] (Resolved client)].
Proof.
  run_cases; intros Hr Hst; injection Hr as <-; simpl in Hst; try discriminate Hst.
  all: split; [reflexivity|]; split; [|eexists; reflexivity].
  all: eexists; split; [reflexivity|].
  all: match goal with H : FormData.get _ _ = _ |- _ => rewrite H end; simpl.
  all: auto using orb_true_r.
Qed.


(** X13. The file details are logged only after the write returned, as the
    last step of the run; the logged size and original size are both the
    number of bytes of the uploaded file, and the reconstructed size is the
    number of bytes that were written. *)
Theorem details_logged_after_the_write (c : HonoContext) (w : World)
    (label : string) (d : LogDetails) :
  EvConsoleLog label d ∈ trace S c w ->
  exists fd file path buf before,
    req_formData c = Resolved fd
    /\ FormData.get fd "file" = Some (FormData.EntryFile file)
    /\ trace S c w =
         (before ++ [EvWriteFile path buf (Resolved tt); EvConsoleLog label d])%list
    /\ label = "File details:"
    /\ d = {| log_name := File.name file;
              log_type := File.type file;
              log_size := N.of_nat (length (File.content file));
              originalSize := N.of_nat (length (File.content file));
              reconstructedSize := N.of_nat (length buf) |}.
Proof.
  run_cases; intros H; trace_inv.
  match goal with u : unit |- _ => destruct u end.
  do 4 eexists. eexists [_; _; _; _; _]. repeat split; eassumption.
Qed.

(** X15. A download is only made right after an upload call that
    returned, and asks the bucket [uploads] for the key that upload was
    made under. *)
Theorem download_follows_the_upload (c : HonoContext) (w : World)
    (bucket path : string) (r : Outcome (StorageReply Blob.t)) :
  EvDownload bucket path r ∈ trace S c w ->
  bucket = "uploads"
  /\ exists before f ur after,
       trace S c w =
         (before ++ EvUpload bucket path f (Resolved ur)
                 :: EvDownload bucket path r :: after)%list.
Proof.
  run_cases; intros H; trace_inv.
  all: split; [reflexivity|].
  all: eexists [_; _], _, _, _; reflexivity.
Qed.

End Coverage.

(** ** The start of the process *)

(** X14. The process gets past its first lines exactly when
    [SUPABASE_URL] and [SUPABASE_ANON_KEY] are both set to a non-empty
    string, and the storage client is then created from these two values;
    no other variable of the environment is looked at. *)
Theorem startup_needs_both_supabase_variables
    (stack : string) (env : gmap string string) :
  (forall url key,
      Startup.supabase_config stack env = Resolved (url, key) <->
      env !! "SUPABASE_URL" = Some url /\ url <> ""
      /\ env !! "SUPABASE_ANON_KEY" = Some key /\ key <> "")
  /\ (forall name value,
        name <> "SUPABASE_URL" -> name <> "SUPABASE_ANON_KEY" ->
        Startup.supabase_config stack (<[name := value]> env)
          = Startup.supabase_config stack env
        /\ Startup.supabase_config stack (delete name env)
            = Startup.supabase_config stack env).
Proof.
  split.
  - intros url key. unfold Startup.supabase_config, Startup.unset.
    destruct (env !! "SUPABASE_URL") as [u|], (env !! "SUPABASE_ANON_KEY") as [k|].
    all: try destruct (String.eqb_spec u ""); try destruct (String.eqb_spec k "").
    all: simpl; rewrite ?orb_true_r; simpl.
    all: split; [intros H|intros (Hu & Hne & Hk & Hne')].
    all: try discriminate.
    all: try (injection Hu as <-; injection Hk as <-; congruence).
    injection H as <- <-. auto.
  - intros name value Hu Hk. unfold Startup.supabase_config.
    rewrite !lookup_insert_ne, !lookup_delete_ne by congruence. split; reflexivity.
Qed.

(** ** The added properties on the in-memory services *)

(** X2 on the 10-byte [a.txt]. *)
Lemma encrypt_receives_base64_witness :
  EvEncrypt "MDEyMzQ1Njc4OQ==" InMemory.opts
    (Resolved (Data (InMemory.seal "MDEyMzQ1Njc4OQ==")))
  ∈ trace InMemory.services InMemory.a_txt InMemory.fresh
  /\ exists fd file,
       req_formData InMemory.a_txt = Resolved fd
       /\ FormData.get fd "file" = Some (FormData.EntryFile file)
       /\ "MDEyMzQ1Njc4OQ==" = Buffer.toString_base64 (File.arrayBuffer file)
       /\ Buffer.from_base64 "MDEyMzQ1Njc4OQ==" = File.content file
       /\ String.length "MDEyMzQ1Njc4OQ==" = (4 * ((length (File.content file) + 2) / 3))%nat
       /\ InMemory.opts = {| table := uploads; column := "file" |}.
Proof.
  assert (H : EvEncrypt "MDEyMzQ1Njc4OQ==" InMemory.opts
    (Resolved (Data (InMemory.seal "MDEyMzQ1Njc4OQ==")))
    ∈ trace InMemory.services InMemory.a_txt InMemory.fresh)
    by (vm_compute; repeat constructor).
  split; [exact H|].
  exact (encrypt_receives_base64 InMemory.services _ _ _ _ _ H).
Defined.

(** X3 on the 10-byte [a.txt] and an empty bucket. *)
Lemma round_trip_when_stored_witness :
  EvWriteFile "/app/uploads/a.txt" (list_byte_of_string "0123456789") (Resolved tt)
  ∈ trace InMemory.services InMemory.a_txt InMemory.fresh
  /\ "/app/uploads/a.txt" =
       join InMemory.services
         (join InMemory.services (process_cwd InMemory.services) "uploads")
         (File.name InMemory.a_txt_file)
  /\ list_byte_of_string "0123456789" = File.content InMemory.a_txt_file.
Proof.
  assert (Hw : EvWriteFile "/app/uploads/a.txt" (list_byte_of_string "0123456789")
                 (Resolved tt)
    ∈ trace InMemory.services InMemory.a_txt InMemory.fresh)
    by (vm_compute; repeat constructor).
  assert (Hu : EvUpload "uploads" "a.txt.encrypted"
    {| File.name := "a.txt.encrypted"; File.type := "application/json";
       File.content := list_byte_of_string "ct:MDEyMzQ1Njc4OQ==" |}
    (Resolved {| data := Some "a.txt.encrypted"; error := None |})
    ∈ trace InMemory.services InMemory.a_txt InMemory.fresh)
    by (vm_compute; repeat constructor).
  assert (Hd : EvDownload "uploads" "a.txt.encrypted"
    (Resolved {| data := Some {| Blob.type := "application/json";
                                 Blob.content := list_byte_of_string "ct:MDEyMzQ1Njc4OQ==" |};
                 error := None |})
    ∈ trace InMemory.services InMemory.a_txt InMemory.fresh)
    by (vm_compute; repeat constructor).
  split; [exact Hw|].
  exact (round_trip_when_stored InMemory.services InMemory.a_txt InMemory.fresh
           _ InMemory.a_txt_file _ _ _ _ _ _ _ _ _
           (fun j => eq_refl) Runs.decrypt_encrypted eq_refl eq_refl
           Hu Hd eq_refl eq_refl Hw).
Defined.

(** X4 without client credentials: the construction of the client throws. *)
Lemma rejected_call_ends_the_run_witness :
  EvProtect [uploads]
    (Rejected (InMemory.error_of "[protect]: missing client credentials"))
  ∈ trace InMemory.services InMemory.a_txt InMemory.without_credentials
  /\ response InMemory.services InMemory.a_txt InMemory.without_credentials =
       Resolved (c_json (ErrorDetailsBody "Failed to upload file"
                           "[protect]: missing client credentials") 500).
Proof.
  assert (H : EvProtect [uploads]
    (Rejected (InMemory.error_of "[protect]: missing client credentials"))
    ∈ trace InMemory.services InMemory.a_txt InMemory.without_credentials)
    by (vm_compute; repeat constructor).
  split; [exact H|].
  exact (proj1 (rejected_call_ends_the_run InMemory.services _ _ _ _ H eq_refl)).
Defined.

(** X5 with a bucket that holds a text that is not JSON. *)
Lemma unparsable_download_is_500_witness :
  EvDownload "uploads" "a.txt.encrypted"
    (Resolved {| data := Some {| Blob.type := "text/plain";
                                 Blob.content := list_byte_of_string "hello" |};
                 error := None |})
  ∈ trace InMemory.strict_services InMemory.a_txt InMemory.foreign_object
  /\ response InMemory.strict_services InMemory.a_txt InMemory.foreign_object =
       Resolved (c_json (ErrorDetailsBody "Failed to upload file"
                           "Unexpected token in JSON at position 0") 500).
Proof.
  assert (H : EvDownload "uploads" "a.txt.encrypted"
    (Resolved {| data := Some {| Blob.type := "text/plain";
                                 Blob.content := list_byte_of_string "hello" |};
                 error := None |})
    ∈ trace InMemory.strict_services InMemory.a_txt InMemory.foreign_object)
    by (vm_compute; repeat constructor).
  split; [exact H|].
  exact (proj1 (unparsable_download_is_500 InMemory.strict_services _ _ _ _ _ _
                  {| Error.name := "SyntaxError";
                     Error.message := "Unexpected token in JSON at position 0";
                     Error.stack := "" |}
                  H eq_refl eq_refl)).
Defined.

(** X6 on a body that is not a form. *)
Lemma unreadable_form_is_500_witness :
  response InMemory.services InMemory.not_a_form InMemory.fresh =
    Resolved (c_json (ErrorDetailsBody "Failed to upload file"
                        "Failed to parse body as FormData") 500).
Proof.
  exact (proj1 (unreadable_form_is_500 InMemory.services InMemory.not_a_form
                  InMemory.fresh InMemory.fresh tt
                  {| Error.name := "TypeError";
                     Error.message := "Failed to parse body as FormData";
                     Error.stack := "" |}
                  eq_refl eq_refl)).
Defined.

(** X8 on the 10-byte [a.txt]. *)
Lemma decrypt_receives_the_download_witness :
  EvDecrypt (InMemory.seal "MDEyMzQ1Njc4OQ==") (Resolved (Data "MDEyMzQ1Njc4OQ=="))
  ∈ trace InMemory.services InMemory.a_txt InMemory.fresh
  /\ exists fd file dl blob,
       req_formData InMemory.a_txt = Resolved fd
       /\ FormData.get fd "file" = Some (FormData.EntryFile file)
       /\ EvDownload "uploads" (File.name file +:+ ".encrypted") (Resolved dl)
          ∈ trace InMemory.services InMemory.a_txt InMemory.fresh
       /\ data dl = Some blob
       /\ JSON_parse InMemory.services (Blob.text blob)
          = Resolved (InMemory.seal "MDEyMzQ1Njc4OQ==").
Proof.
  assert (H : EvDecrypt (InMemory.seal "MDEyMzQ1Njc4OQ==")
                (Resolved (Data "MDEyMzQ1Njc4OQ=="))
    ∈ trace InMemory.services InMemory.a_txt InMemory.fresh)
    by (vm_compute; repeat constructor).
  split; [exact H|].
  exact (decrypt_receives_the_download InMemory.services _ _ _ _ H).
Defined.

(** X9 on the 10-byte [a.txt]. *)
Lemma write_receives_the_decryption_witness :
  EvWriteFile "/app/uploads/a.txt" (list_byte_of_string "0123456789") (Resolved tt)
  ∈ trace InMemory.services InMemory.a_txt InMemory.fresh
  /\ exists fd file payload decrypted,
       req_formData InMemory.a_txt = Resolved fd
       /\ FormData.get fd "file" = Some (FormData.EntryFile file)
       /\ EvDecrypt payload (Resolved (Data decrypted))
          ∈ trace InMemory.services InMemory.a_txt InMemory.fresh
       /\ list_byte_of_string "0123456789" = Buffer.from_base64 decrypted
       /\ "/app/uploads/a.txt" =
            join InMemory.services
              (join InMemory.services (process_cwd InMemory.services) "uploads")
              (File.name file).
Proof.
  assert (H : EvWriteFile "/app/uploads/a.txt" (list_byte_of_string "0123456789")
                (Resolved tt)
    ∈ trace InMemory.services InMemory.a_txt InMemory.fresh)
    by (vm_compute; repeat constructor).
  split; [exact H|].
  exact (write_receives_the_decryption InMemory.services _ _ _ _ _ H).
Defined.

(** X11 on a form without fields. *)
Lemma only_bad_input_is_400_witness :
  response InMemory.services InMemory.no_file InMemory.fresh =
    Resolved (c_json (ErrorBody "No file provided or invalid file format") 400)
  /\ exists client,
       trace InMemory.services InMemory.no_file InMemory.fresh =
         [EvProtect [uploads] (Resolved client)].
Proof.
  assert (H : response InMemory.services InMemory.no_file InMemory.fresh =
    Resolved (c_json (ErrorBody "No file provided or invalid file format") 400))
    by (vm_compute; reflexivity).
  split; [exact H|].
  exact (proj2 (proj2 (only_bad_input_is_400 InMemory.services _ _ _ H eq_refl))).
Defined.


(** X13 on the 10-byte [a.txt]. *)
Lemma details_logged_after_the_write_witness :
  EvConsoleLog "File details:"
    {| log_name := "a.txt"; log_type := "text/plain"; log_size := 10;
       originalSize := 10; reconstructedSize := 10 |}
  ∈ trace (Json := InMemory.Json) (Client := InMemory.Client)
      InMemory.services InMemory.a_txt InMemory.fresh
  /\ exists fd file path buf before,
       req_formData InMemory.a_txt = Resolved fd
       /\ FormData.get fd "file" = Some (FormData.EntryFile file)
       /\ trace InMemory.services InMemory.a_txt InMemory.fresh =
            (before ++ [EvWriteFile path buf (Resolved tt);
                        EvConsoleLog "File details:"
                          {| log_name := "a.txt"; log_type := "text/plain";
                             log_size := 10; originalSize := 10;
                             reconstructedSize := 10 |}])%list
       /\ "File details:" = "File details:"
       /\ {| log_name := "a.txt"; log_type := "text/plain"; log_size := 10;
             originalSize := 10; reconstructedSize := 10 |}
          = {| log_name := File.name file;
               log_type := File.type file;
               log_size := N.of_nat (length (File.content file));
               originalSize := N.of_nat (length (File.content file));
               reconstructedSize := N.of_nat (length buf) |}.
Proof.
  assert (H : EvConsoleLog "File details:"
    {| log_name := "a.txt"; log_type := "text/plain"; log_size := 10;
       originalSize := 10; reconstructedSize := 10 |}
    ∈ trace (Json := InMemory.Json) (Client := InMemory.Client)
        InMemory.services InMemory.a_txt InMemory.fresh)
    by (vm_compute; repeat constructor).
  split; [exact H|].
  exact (details_logged_after_the_write InMemory.services _ _ _ _ H).
Defined.

(** X15 on the 10-byte [a.txt]. *)
Lemma download_follows_the_upload_witness :
  EvDownload "uploads" "a.txt.encrypted"
    (Resolved {| data := Some {| Blob.type := "application/json";
                                 Blob.content := list_byte_of_string "ct:MDEyMzQ1Njc4OQ==" |};
                 error := None |})
  ∈ trace InMemory.services InMemory.a_txt InMemory.fresh
  /\ exists before f ur after,
       trace InMemory.services InMemory.a_txt InMemory.fresh =
         (before ++ EvUpload "uploads" "a.txt.encrypted" f (Resolved ur)
                 :: EvDownload "uploads" "a.txt.encrypted"
                      (Resolved {| data := Some {| Blob.type := "application/json";
                                                   Blob.content :=
                                                     list_byte_of_string "ct:MDEyMzQ1Njc4OQ==" |};
                                   error := None |})
                 :: after)%list.
Proof.
  assert (H : EvDownload "uploads" "a.txt.encrypted"
    (Resolved {| data := Some {| Blob.type := "application/json";
                                 Blob.content := list_byte_of_string "ct:MDEyMzQ1Njc4OQ==" |};
                 error := None |})
    ∈ trace InMemory.services InMemory.a_txt InMemory.fresh)
    by (vm_compute; repeat constructor).
  split; [exact H|].
  exact (proj2 (download_follows_the_upload InMemory.services _ _ _ _ _ H)).
Defined.
